(** * ProfileTab: the profile view of the Shroomify application

    A shallow embedding of [src/app/tabs/ProfileTab.tsx]: the helpers of the
    component ([getInitials], [getActivityIcon], [getStatusColorClasses]),
    its local state, its handlers ([handleProfileUpdate],
    [handleAvatarUpdate], [handleGoogleLogin], the handlers of the buttons
    and of the name field) and the parts of the view that depend on the
    state.

    A string of the program is the list of its UTF-16 code units, as
    JavaScript has it. *)

From Stdlib Require Import Ascii String NArith.
From stdpp Require Import base option list strings gmap.

Set Warnings "-register-all".

(** ** Strings *)

(** A UTF-16 code unit: a number below 65536. *)
Definition code_unit : Type := N.

Definition jsstring : Type := list code_unit.

#[global] Instance jsstring_eq_dec : EqDecision jsstring :=
  list_eq_dec (A:=N).

#[global] Instance jsstring_countable : Countable jsstring :=
  list_countable (A:=N).

(** The string of a literal of the source (the literals used here are
    ASCII text: a character is its code unit). *)
Fixpoint js (literal : string) : jsstring :=
  match literal with
  | EmptyString => []
  | String c rest => N_of_ascii c :: js rest
  end.

Arguments js : simpl never.

(** The case mapping of the Unicode tables of the engine, for the strings
    that hold a code unit beyond ASCII: it works on code points (two
    surrogate halves side by side are one code point) and the result can be
    longer than the string (the sharp s gives SS). *)
Class Unicode := { Unicode_toUpperCase : jsstring -> jsstring }.

(** ** String and array builtins used by [getInitials] *)

Module JS.

Definition space : code_unit := 32%N.

(** [s.split(sep)] for a separator of one code unit: the pieces between
    the separators, the empty ones included; the empty string gives one
    empty piece. *)
Fixpoint split (sep : code_unit) (s : jsstring) : list jsstring :=
  match s with
  | [] => [ [] ]
  | c :: rest =>
      if N.eqb c sep then [] :: split sep rest
      else match split sep rest with
           | piece :: pieces => (c :: piece) :: pieces
           | [] => [ [ c ] ]
           end
  end.

(** [s[0]]: the first code unit as a string, [undefined] (here [None])
    on the empty string. *)
Definition char0 (s : jsstring) : option jsstring :=
  match s with
  | [] => None
  | c :: _ => Some [ c ]
  end.

(** The text of an element in a join: [undefined] counts as the empty
    string. *)
Definition element_text (x : option jsstring) : jsstring :=
  match x with
  | Some s => s
  | None => []
  end.

(** [xs.join(sep)] *)
Fixpoint join (sep : jsstring) (xs : list (option jsstring)) : jsstring :=
  match xs with
  | [] => []
  | [ x ] => element_text x
  | x :: rest => element_text x ++ sep ++ join sep rest
  end.

(** The string is ASCII text: every code unit is below 128. *)
Definition is_ascii (s : jsstring) : bool :=
  forallb (fun c => (c <? 128)%N) s.

(** The upper case of an ASCII code unit: the letters a..z become A..Z,
    nothing else has another upper case. *)
Definition upper_ascii (c : code_unit) : code_unit :=
  if ((97 <=? c) && (c <=? 122))%N then (c - 32)%N else c.

(** [s.toUpperCase()]: on ASCII text, unit by unit; on any other string,
    what the Unicode tables of the engine give. *)
Definition toUpperCase `{Unicode} (s : jsstring) : jsstring :=
  if is_ascii s then map upper_ascii s else Unicode_toUpperCase s.

End JS.

(** ** [getInitials] *)

(** [name.split(' ').map((n) => n[0]).join('').toUpperCase()] *)
Definition getInitials `{Unicode} (name : jsstring) : jsstring :=
  JS.toUpperCase
    (JS.join (js "") (map (fun n => JS.char0 n) (JS.split JS.space name))).

(** The initials as the specification words them: the tokens of the name are
    its maximal runs of code units that are not separators; the first
    character of each is upper-cased, and the results are concatenated in
    the order of the tokens. *)
Module Spec.

Fixpoint tokens (is_sep : code_unit -> bool) (s : jsstring) : list jsstring :=
  match s with
  | [] => []
  | c :: rest =>
      if is_sep c then tokens is_sep rest
      else match rest with
           | [] => [ [ c ] ]
           | c' :: _ =>
               if is_sep c' then [ c ] :: tokens is_sep rest
               else match tokens is_sep rest with
                    | t :: ts => (c :: t) :: ts
                    | [] => [ [ c ] ]
                    end
           end
  end.

(** The first code unit of a token, as it is. *)
Definition first_raw (token : jsstring) : jsstring :=
  match token with
  | [] => []
  | c :: _ => [ c ]
  end.

(** The first code unit of a token, upper-cased. *)
Definition upper_first `{Unicode} (token : jsstring) : jsstring :=
  JS.toUpperCase (first_raw token).

Fixpoint concat (pieces : list jsstring) : jsstring :=
  match pieces with
  | [] => []
  | p :: ps => p ++ concat ps
  end.

Definition initials `{Unicode} (is_sep : code_unit -> bool) (name : jsstring)
  : jsstring :=
  concat (map upper_first (tokens is_sep name)).

(** White space, as the [\s] of a regular expression has it: tab, line
    feed, vertical tab, form feed, carriage return, space, the no-break
    spaces, the other space separators, the line and paragraph separators
    and the byte order mark. *)
Definition is_whitespace (c : code_unit) : bool :=
  ((9 <=? c) && (c <=? 13) || (c =? 32) || (c =? 160) || (c =? 5760)
   || (8192 <=? c) && (c <=? 8202) || (c =? 8232) || (c =? 8233)
   || (c =? 8239) || (c =? 8287) || (c =? 12288) || (c =? 65279))%N.

Definition is_space (c : code_unit) : bool := N.eqb c JS.space.

Fixpoint has (p : code_unit -> bool) (s : jsstring) : bool :=
  match s with
  | [] => false
  | c :: rest => p c || has p rest
  end.

End Spec.

(** ** Activity feed: icon and palette tables *)

Inductive ActivityType := scan | achievement | alert.
Inductive StatusColor := green | yellow | red | blue.

(** The string a member of the union type is at run time. *)
Definition type_key (t : ActivityType) : jsstring :=
match t with
| scan => js "scan"
| achievement => js "achievement"
| alert => js "alert"
end.

Definition color_key (c : StatusColor) : jsstring :=
match c with
| green => js "green"
| yellow => js "yellow"
| red => js "red"
| blue => js "blue"
end.

Record ActivityItem := {
id : Z;
type : ActivityType;
title : jsstring;
time : jsstring;
status : jsstring;
statusColor : StatusColor
}.

(** The components of lucide-react that the tables name. *)
Inductive Icon := Camera | Trophy | Target.

Record IconElement := { component : Icon; className : jsstring }.

Record ColorClasses := { bg : jsstring; text : jsstring; iconBg : jsstring }.

(** The own properties of the object literal [iconMap]. *)
Definition iconMap : gmap jsstring Icon :=
{[ js "scan" := Camera; js "achievement" := Trophy; js "alert" := Target ]}.

(** [getActivityIcon], on the string that its [type] is at run time. The
    parameter has the union type of the three names: [iconMap[type]] is
    then the lookup among the own properties of the table (so it is for
    every name that [Object.prototype] does not define; the names it
    defines are outside of the model). [None] is the lookup miss, where
    [iconMap[type]] is [undefined]. *)
Definition getActivityIcon (type : jsstring) : option IconElement :=
IconComponent ← iconMap !! type;
Some {| component := IconComponent; className := js "w-4 h-4" |}.

(** The own properties of the object literal [colorMap]. *)
Definition colorMap : gmap jsstring ColorClasses :=
{[ js "green" := {| bg := js "bg-green-600/20"; text := js "text-green-400";
                 iconBg := js "bg-green-600/20" |};
   js "yellow" := {| bg := js "bg-yellow-600/20"; text := js "text-yellow-400";
                  iconBg := js "bg-yellow-600/20" |};
   js "red" := {| bg := js "bg-red-600/20"; text := js "text-red-400";
               iconBg := js "bg-red-600/20" |};
   js "blue" := {| bg := js "bg-blue-600/20"; text := js "text-blue-400";
                iconBg := js "bg-blue-600/20" |} ]}.

(** [getStatusColorClasses], on the string that its [color] is at run
    time, a name of the union type: the lookup among the own properties of
    the table, as for [getActivityIcon]. *)
Definition getStatusColorClasses (color : jsstring) : option ColorClasses :=
colorMap !! color.

(** One row of the feed, as the [activityData.map] callback builds it: the
  class of the round icon holder, the class of the span around the icon,
  the icon, and the class of the status badge. *)
Record ActivityRow := {
row_key : Z;
holder_class : jsstring;
icon_class : jsstring;
row_icon : IconElement;
badge_class : jsstring;
badge_text : jsstring
}.

Definition render_activity (activity : ActivityItem) : option ActivityRow :=
statusColors ← getStatusColorClasses (color_key (statusColor activity));
icon ← getActivityIcon (type_key (type activity));
Some {| row_key := id activity;
        holder_class := js "w-8 h-8 " ++ iconBg statusColors
                        ++ js " rounded-full flex items-center justify-center";
        icon_class := text statusColors;
        row_icon := icon;
        badge_class := bg statusColors ++ js " " ++ text statusColors
                       ++ js " px-2 py-1 rounded text-xs";
        badge_text := status activity |}.

(** ** Run-time values

  What [response.json()] resolves to is untyped ([any]); the fields of the
  user data hold whatever the handlers store in them. Values are the JSON
  ones and [undefined]. The members of an object are kept in the order of
  the body text, and the last of two members of one name is the one the
  object has, as [JSON.parse] has it. Numbers are left to the engine. *)

Inductive JSValue {number : Type} :=
| VUndefined
| VNull
| VBool (b : bool)
| VNum (n : number)
| VStr (s : jsstring)
| VArr (items : list JSValue)
| VObj (members : list (jsstring * JSValue)).
Arguments JSValue : clear implicits.

(** A thrown [Error] object (an [Error], a [TypeError] of the engine, the
    rejection of [fetch] or of [response.json()]). *)
Record Error := { message : jsstring }.

(** Completion of an evaluation: a value, or a thrown error. *)
Inductive Completion (A : Type) :=
| Normal (a : A)
| Throw (e : Error).
Arguments Normal {A} a.
Arguments Throw {A} e.

(** What the engine decides and the program only uses: the truth value and
    the text of a number, the text of an array or object (the conversion
    can throw), the message of the [TypeError] raised by the access to
    property [k] of [undefined] or [null], and the message of the
    [TypeError] raised by the call of a property [k] that is no function. *)
Class Engine (number : Type) := {
  Number_ToBoolean : number -> bool;
  Number_ToString : number -> jsstring;
  Object_ToString : JSValue number -> Completion jsstring;
  TypeError_message : JSValue number -> jsstring -> jsstring;
  TypeError_not_a_function : JSValue number -> jsstring -> jsstring
}.

Section Component.
Context {number : Type} `{engine : !Engine number} `{unicode : !Unicode}.

Local Abbreviation value := (JSValue number).

(** [ToBoolean]. *)
Definition truthy (v : value) : bool :=
  match v with
  | VUndefined | VNull => false
  | VBool b => b
  | VNum n => Number_ToBoolean n
  | VStr s => negb (bool_decide (s = js ""))
  | VArr _ | VObj _ => true
  end.

(** [a || b] *)
Definition or_else (a b : value) : value := if truthy a then a else b.

(** [ToString]. *)
Definition ToString (v : value) : Completion jsstring :=
  match v with
  | VUndefined => Normal (js "undefined")
  | VNull => Normal (js "null")
  | VBool true => Normal (js "true")
  | VBool false => Normal (js "false")
  | VNum n => Normal (Number_ToString n)
  | VStr s => Normal s
  | VArr _ | VObj _ => Object_ToString v
  end.

(** The property of name [k] that an object of these members has. *)
Fixpoint own_property (k : jsstring) (members : list (jsstring * value))
  : option value :=
  match members with
  | [] => None
  | (k', v) :: rest =>
      match own_property k rest with
      | Some later => Some later
      | None => if bool_decide (k = k') then Some v else None
      end
  end.

(** [v.k], for the names this component reads ([error], [user],
    [full_name], [email]), which no prototype defines: only an object
    has them, as own properties. *)
Definition get (v : value) (k : jsstring) : Completion value :=
  match v with
  | VUndefined | VNull => Throw {| message := TypeError_message v k |}
  | VObj members => Normal (default VUndefined (own_property k members))
  | _ => Normal VUndefined
  end.

(** [v?.k] *)
Definition opt_get (v : value) (k : jsstring) : value :=
  match v with
  | VUndefined | VNull => VUndefined
  | VObj members => default VUndefined (own_property k members)
  | _ => VUndefined
  end.

(** [new Error(v)] for a [v] that is not [undefined]. *)
Definition new_Error (v : value) : Completion Error :=
  match ToString v with
  | Normal s => Normal {| message := s |}
  | Throw e => Throw e
  end.

(** ** User data and local state *)

Record UserData := {
  name : value;
  email : value;
  phone : value;
  joinDate : value;
  experienceLevel : value;
  favoriteMethod : value;
  avatar : value
}.

(** [keyof UserData] *)
Inductive UserDataKey :=
| key_name | key_email | key_phone | key_joinDate | key_experienceLevel
| key_favoriteMethod | key_avatar.

Definition field (data : UserData) (k : UserDataKey) : value :=
  match k with
  | key_name => name data
  | key_email => email data
  | key_phone => phone data
  | key_joinDate => joinDate data
  | key_experienceLevel => experienceLevel data
  | key_favoriteMethod => favoriteMethod data
  | key_avatar => avatar data
  end.

(** [{ ...data, [k]: v }] *)
Definition spread_with (data : UserData) (k : UserDataKey) (v : value)
  : UserData :=
  match k with
  | key_name =>
      {| name := v; email := email data; phone := phone data;
         joinDate := joinDate data; experienceLevel := experienceLevel data;
         favoriteMethod := favoriteMethod data; avatar := avatar data |}
  | key_email =>
      {| name := name data; email := v; phone := phone data;
         joinDate := joinDate data; experienceLevel := experienceLevel data;
         favoriteMethod := favoriteMethod data; avatar := avatar data |}
  | key_phone =>
      {| name := name data; email := email data; phone := v;
         joinDate := joinDate data; experienceLevel := experienceLevel data;
         favoriteMethod := favoriteMethod data; avatar := avatar data |}
  | key_joinDate =>
      {| name := name data; email := email data; phone := phone data;
         joinDate := v; experienceLevel := experienceLevel data;
         favoriteMethod := favoriteMethod data; avatar := avatar data |}
  | key_experienceLevel =>
      {| name := name data; email := email data; phone := phone data;
         joinDate := joinDate data; experienceLevel := v;
         favoriteMethod := favoriteMethod data; avatar := avatar data |}
  | key_favoriteMethod =>
      {| name := name data; email := email data; phone := phone data;
         joinDate := joinDate data; experienceLevel := experienceLevel data;
         favoriteMethod := v; avatar := avatar data |}
  | key_avatar =>
      {| name := name data; email := email data; phone := phone data;
         joinDate := joinDate data; experienceLevel := experienceLevel data;
         favoriteMethod := favoriteMethod data; avatar := v |}
  end.

(** A callback of the parent, known by its reference only. *)
Inductive Callback := callback (ref : nat).

Record ProfileTabProps := {
  userData : option UserData;
  onUpdateProfile : option Callback;
  onUpdateAvatar : option Callback;
  activityData : option (list ActivityItem);
  personalizedTip : option jsstring
}.

Definition defaultUserData : UserData :=
  {| name := VStr (js "Juan Dela Cruz");
     email := VStr (js "juan.delacruz@shroomify.com");
     phone := VStr (js "+63 912 345 6789");
     joinDate := VStr (js "January 2024");
     experienceLevel := VStr (js "Intermediate");
     favoriteMethod := VStr (js "Straw Substrate");
     avatar := VNull |}.

Definition defaultActivityData : list ActivityItem :=
  [ {| id := 1; type := scan; title := js "Scanned fruiting bag #23";
       time := js "2 hours ago"; status := js "Healthy"; statusColor := green |};
    {| id := 2; type := achievement; title := js "Achieved 12-day streak";
       time := js "1 day ago"; status := js "Achievement"; statusColor := yellow |};
    {| id := 3; type := alert; title := js "Detected contamination early";
       time := js "3 days ago"; status := js "Alert"; statusColor := red |} ].

(** The four [useState] cells; [formError = None] is [null]. *)
Record ComponentState := {
  isEditing : bool;
  localUserData : UserData;
  formError : option jsstring;
  isAuthLoading : bool
}.

(** The state of the first render. *)
Definition initial_state (props : ProfileTabProps) : ComponentState :=
  {| isEditing := false;
     localUserData := default defaultUserData (userData props);
     formError := None;
     isAuthLoading := false |}.

(** ** Effects

    A handler runs on a world: the state cells of the component and the
    trace of what it did to the outside (requests sent, callbacks of the
    parent invoked), the oldest first. It ends normally or by a throw. *)

Record RequestInit := {
  method : jsstring;
  headers : list (jsstring * jsstring);
  body : value  (* the value [JSON.stringify] is given: the body is its text *)
}.

Inductive Event :=
| Fetch (url : jsstring) (init : RequestInit)
| Call_onUpdateProfile (cb : Callback) (data : UserData)
| Call_onUpdateAvatar (cb : Callback).

Record World := { state : ComponentState; trace : list Event }.

Definition M (A : Type) : Type := World -> Completion A * World.

Definition ret {A} (a : A) : M A := fun w => (Normal a, w).

Definition bind {A B} (m : M A) (k : A -> M B) : M B :=
  fun w =>
    match m w with
    | (Normal a, w') => k a w'
    | (Throw e, w') => (Throw e, w')
    end.

Definition throw {A} (e : Error) : M A := fun w => (Throw e, w).

(** An evaluation without effect, inside a handler. *)
Definition lift {A} (c : Completion A) : M A := fun w => (c, w).

(** [try { body } catch (error) { handler } finally { cleanup }]: the
    cleanup runs on every path; a throw of the cleanup replaces the
    completion of what ran before it. *)
Definition try_catch_finally (body : M unit) (handler : Error -> M unit)
    (cleanup : M unit) : M unit :=
  fun w =>
    let '(c1, w1) := body w in
    let '(c2, w2) :=
      match c1 with
      | Normal _ => (c1, w1)
      | Throw error => handler error w1
      end in
    match cleanup w2 with
    | (Normal _, w3) => (c2, w3)
    | (Throw e, w3) => (Throw e, w3)
    end.

Definition emit (ev : Event) : M unit :=
  fun w => (Normal tt, {| state := state w; trace := trace w ++ [ ev ] |}).

Definition modify (f : ComponentState -> ComponentState) : M unit :=
  fun w => (Normal tt, {| state := f (state w); trace := trace w |}).

Definition setIsEditing (b : bool) : M unit :=
  modify (fun s => {| isEditing := b; localUserData := localUserData s;
                      formError := formError s;
                      isAuthLoading := isAuthLoading s |}).

Definition setLocalUserData (data : UserData) : M unit :=
  modify (fun s => {| isEditing := isEditing s; localUserData := data;
                      formError := formError s;
                      isAuthLoading := isAuthLoading s |}).

Definition setFormError (msg : option jsstring) : M unit :=
  modify (fun s => {| isEditing := isEditing s;
                      localUserData := localUserData s;
                      formError := msg;
                      isAuthLoading := isAuthLoading s |}).

Definition setIsAuthLoading (b : bool) : M unit :=
  modify (fun s => {| isEditing := isEditing s;
                      localUserData := localUserData s;
                      formError := formError s;
                      isAuthLoading := b |}).

Declare Scope handler_scope.
Delimit Scope handler_scope with handler.
Notation "'do' x <- m ; k" := (bind m (fun x => k))
  (at level 10, x name, m at level 100, k at level 200) : handler_scope.
Notation "m ;; k" := (bind m (fun _ => k))
  (at level 100, k at level 200, right associativity) : handler_scope.

(** ** [handleProfileUpdate] and [handleAvatarUpdate]

    A handler is a closure of the render that made it: [props] and
    [localUserData] are the ones of that render. *)

Definition handleProfileUpdate (props : ProfileTabProps)
    (localUserData : UserData) (field : UserDataKey) (v : jsstring) : M unit :=
  (let updatedData := spread_with localUserData field (VStr v) in
   setLocalUserData updatedData ;;
   match onUpdateProfile props with
   | Some cb => emit (Call_onUpdateProfile cb updatedData)
   | None => ret tt
   end)%handler.

Definition handleAvatarUpdate (props : ProfileTabProps) : M unit :=
  match onUpdateAvatar props with
  | Some cb => emit (Call_onUpdateAvatar cb)
  | None => ret tt
  end.

(** ** [handleGoogleLogin] *)

(** What the network answers to the one request: [fetch] rejects, or it
    resolves to a response with its [ok] flag and what [response.json()]
    settles to (the parsed body, or the rejection of a body that is not
    JSON). *)
Record Response := { ok : bool; json : Completion value }.

Inductive Network :=
| fetch_rejects (e : Error)
| fetch_resolves (response : Response).

Definition fetch (net : Network) (url : jsstring) (init : RequestInit)
  : M Response :=
  (emit (Fetch url init) ;;
   match net with
   | fetch_rejects e => throw e
   | fetch_resolves response => ret response
   end)%handler.

Definition login_failed : jsstring := js "Google login failed. Please try again.".

(** [message || 'Google login failed. Please try again.'] on a string. *)
Definition message_or_default (msg : jsstring) : jsstring :=
  if bool_decide (msg = js "") then login_failed else msg.

Definition handleGoogleLogin (net : Network) (localUserData : UserData)
    (idToken : jsstring) : M unit :=
  try_catch_finally
    (setIsAuthLoading true ;;
     setFormError None ;;
     do response <- fetch net (js "/api/auth/google")
         {| method := js "POST";
            headers := [ (js "Content-Type", js "application/json") ];
            body := VObj [ (js "id_token", VStr idToken) ] |};
     do result <- lift (json response);
     (if negb (ok response)
      then do error <-
             lift (new_Error (or_else (opt_get result (js "error"))
                                      (VStr login_failed)));
           throw error
      else ret tt) ;;
     do user <- lift (get result (js "user"));
     do full_name <- lift (get user (js "full_name"));
     do user_email <- lift (get user (js "email"));
     setLocalUserData
       {| name := full_name;
          email := user_email;
          phone := phone localUserData;
          joinDate := joinDate localUserData;
          experienceLevel := experienceLevel localUserData;
          favoriteMethod := favoriteMethod localUserData;
          avatar := avatar localUserData |})%handler
    (fun error => setFormError (Some (message_or_default (message error))))
    (setIsAuthLoading false).

(** The handlers as the current render has them: they close over the
    user data of the state they are invoked in. *)
Definition run_handleProfileUpdate (props : ProfileTabProps)
    (field : UserDataKey) (v : jsstring) (w : World) : Completion unit * World :=
  handleProfileUpdate props (localUserData (state w)) field v w.

Definition run_handleGoogleLogin (net : Network) (idToken : jsstring)
    (w : World) : Completion unit * World :=
  handleGoogleLogin net (localUserData (state w)) idToken w.

(** ** The avatar of the profile card *)

Inductive AvatarView :=
| AvatarImage (src : value)
| AvatarInitials (initials : jsstring).

(** [localUserData.avatar ? <img src=... /> : <div>{getInitials(name)}</div>];
    [name.split(' ')] throws on a name that is not a string: the read of
    [split] throws on [undefined] and [null], the call throws on the other
    values, which have no function of that name. *)
Definition render_avatar (s : ComponentState) : Completion AvatarView :=
  let data := localUserData s in
  if truthy (avatar data) then Normal (AvatarImage (avatar data))
  else match name data with
       | VStr n => Normal (AvatarInitials (getInitials n))
       | (VUndefined | VNull) as other =>
           Throw {| message := TypeError_message other (js "split") |}
       | other =>
           Throw {| message := TypeError_not_a_function other (js "split") |}
       end.

(** ** Shapes of an answer, for the statements about [handleGoogleLogin] *)

(** The request that the specification describes. *)
Definition login_request (idToken : jsstring) : Event :=
  Fetch (js "/api/auth/google")
    {| method := js "POST";
       headers := [ (js "Content-Type", js "application/json") ];
       body := VObj [ (js "id_token", VStr idToken) ] |}.

(** The body has a user object: its [user] is an object. *)
Definition has_user_object (result : value) : bool :=
  match get result (js "user") with
  | Normal (VObj _) => true
  | _ => false
  end.

Definition nullish (v : value) : bool :=
  match v with
  | VUndefined | VNull => true
  | _ => false
  end.

(** The answer has no user at all: the body is not JSON, or reading its
    [user] throws (the body is [null]), or gives [undefined] or [null]. *)
Definition no_user (parsed : Completion value) : bool :=
  match parsed with
  | Throw _ => true
  | Normal result =>
      match get result (js "user") with
      | Throw _ => true
      | Normal user => nullish user
      end
  end.

(** ** The other handlers of the view *)

(** The edit button: [onClick={() => setIsEditing(!isEditing)}], a closure
    over the [isEditing] of its render. *)
Definition onEditClick (isEditing : bool) : M unit :=
  setIsEditing (negb isEditing).

Definition run_onEditClick (w : World) : Completion unit * World :=
  onEditClick (isEditing (state w)) w.

(** The name input: [onChange={(e) => handleProfileUpdate('name',
    e.target.value)}] and [onBlur={() => setIsEditing(false)}]. *)
Definition onNameChange (props : ProfileTabProps) (localUserData : UserData)
    (target_value : jsstring) : M unit :=
  handleProfileUpdate props localUserData key_name target_value.

Definition run_onNameChange (props : ProfileTabProps) (target_value : jsstring)
    (w : World) : Completion unit * World :=
  onNameChange props (localUserData (state w)) target_value w.

Definition onNameBlur : M unit := setIsEditing false.

(** The input is controlled: every change event carries the whole text of
    the field. The texts of successive events, each handled by the render
    that follows the one before. *)
Definition type_name (props : ProfileTabProps) (texts : list jsstring)
    (w : World) : World :=
  foldl (fun w' target_value => snd (run_onNameChange props target_value w'))
        w texts.

(** The avatar button: [onClick={handleAvatarUpdate}]. *)
Definition run_handleAvatarUpdate (props : ProfileTabProps) (w : World)
  : Completion unit * World :=
  handleAvatarUpdate props w.

(** The sign-in button:
    [const demoIdToken = prompt(...); if (demoIdToken) handleGoogleLogin(demoIdToken);]
    where [prompt] gives the text typed, or [null] (here [None]) when it is
    dismissed. *)
Definition onSignInClick (demoIdToken : option jsstring) (net : Network)
    (localUserData : UserData) : M unit :=
  match demoIdToken with
  | Some token =>
      if truthy (VStr token) then handleGoogleLogin net localUserData token
      else ret tt
  | None => ret tt
  end.

Definition run_onSignInClick (demoIdToken : option jsstring) (net : Network)
    (w : World) : Completion unit * World :=
  onSignInClick demoIdToken net (localUserData (state w)) w.

(** ** The other parts of the view *)

(** [{formError && <div ...>{formError}</div>}]: the line of the error,
    absent when [formError] is [null] or empty. *)
Definition render_error (s : ComponentState) : option jsstring :=
  match formError s with
  | Some msg => if truthy (VStr msg) then Some msg else None
  | None => None
  end.

(** [activityData.map((activity) => ...)] on the list of the props, or on
    the default one; [None] when the callback throws on a row (a lookup
    miss of the palette or of the icon). *)
Definition render_feed (props : ProfileTabProps) : option (list ActivityRow) :=
  mapM render_activity (default defaultActivityData (activityData props)).

(** The sign-in settles without a message: the answer is ok, its body is
    JSON and has a user that is neither [undefined] nor [null]. *)
Definition login_succeeds (net : Network) : bool :=
  match net with
  | fetch_rejects _ => false
  | fetch_resolves response => ok response && negb (no_user (json response))
  end.

End Component.

Arguments UserData : clear implicits.
Arguments ComponentState : clear implicits.
Arguments ProfileTabProps : clear implicits.
Arguments World : clear implicits.
Arguments Response : clear implicits.
Arguments Network : clear implicits.
Arguments Event : clear implicits.

#[global] Instance UserDataKey_eq_dec : EqDecision UserDataKey.
Proof. solve_decision. Defined.

(** ** An engine for the examples

    The bodies of the examples hold no number: the engine has none. The text
    of an array is the text of its elements joined by commas ([undefined]
    and [null] count for nothing); the text of an object is
    [[object Object]], and the conversion throws when the object has a
    [toString] of its own, which is no function. The case mapping is the
    one of Basic Latin and of the Latin-1 Supplement: the examples hold no
    code unit beyond them. *)

Fixpoint sample_ToString (v : JSValue Empty_set) : Completion jsstring :=
  match v with
  | VUndefined => Normal (js "undefined")
  | VNull => Normal (js "null")
  | VBool true => Normal (js "true")
  | VBool false => Normal (js "false")
  | VNum n => match n with end
  | VStr s => Normal s
  | VArr items =>
      (fix join_items (items : list (JSValue Empty_set)) :=
         let text item :=
           match item with
           | VUndefined | VNull => Normal []
           | _ => sample_ToString item
           end in
         match items with
         | [] => Normal []
         | [ item ] => text item
         | item :: rest =>
             match text item with
             | Throw e => Throw e
             | Normal first =>
                 match join_items rest with
                 | Throw e => Throw e
                 | Normal others => Normal (first ++ js "," ++ others)
                 end
             end
         end) items
  | VObj members =>
      match own_property (js "toString") members with
      | Some _ =>
          Throw {| message := js "Cannot convert object to primitive value" |}
      | None => Normal (js "[object Object]")
      end
  end.

Definition sample_nullish_name (v : JSValue Empty_set) : jsstring :=
  match v with
  | VNull => js "null"
  | _ => js "undefined"
  end.

#[global] Instance sample_engine : Engine Empty_set := {|
  Number_ToBoolean (n : Empty_set) := match n with end;
  Number_ToString (n : Empty_set) := match n with end;
  Object_ToString v := sample_ToString v;
  TypeError_message v k :=
    (js "Cannot read properties of ") ++ sample_nullish_name v
    ++ js " (reading '" ++ k ++ js "')";
  TypeError_not_a_function v k := js "name." ++ k ++ js " is not a function"
|}.

Definition upper_latin1 (c : code_unit) : jsstring :=
  if (c =? 223)%N then (js "SS")
  else if (c =? 181)%N then [ 924%N ]
  else if (c =? 255)%N then [ 376%N ]
  else if ((224 <=? c) && (c <=? 254) && negb (c =? 247))%N
       then [ (c - 32)%N ]
       else [ JS.upper_ascii c ].

#[global] Instance sample_unicode : Unicode := {|
  Unicode_toUpperCase s := mjoin (map upper_latin1 s)
|}.

Definition no_props : ProfileTabProps Empty_set :=
  {| userData := None; onUpdateProfile := None; onUpdateAvatar := None;
     activityData := None; personalizedTip := None |}.

(** The world of a first render without props, nothing done yet. *)
Definition first_world : World Empty_set :=
  {| state := initial_state no_props; trace := [] |}.

Definition tab : code_unit := 9%N.

(** The network answering with a body that parses. *)
Definition answer (is_ok : bool) (result : JSValue Empty_set) : Network Empty_set :=
  fetch_resolves {| ok := is_ok; json := Normal result |}.

(** The user of the body
    [{"user": {"full_name": "Maria Clara", "email": "maria@example.com"}}]. *)
Definition maria : list (jsstring * JSValue Empty_set) :=
  [ (js "full_name", VStr (js "Maria Clara")); (js "email", VStr (js "maria@example.com")) ].

(** The user of the body [{"user": {"email": "maria@example.com"}}]. *)
Definition nameless : list (jsstring * JSValue Empty_set) :=
  [ (js "email", VStr (js "maria@example.com")) ].

(** * Properties *)

(** ** Initials *)

Example getInitials_three_words :
  getInitials (js "Juan Dela Cruz") = js "JDC".
Proof. reflexivity. Qed.

Example getInitials_spaces : getInitials (js "  ada   lovelace ") = js "AL".
Proof. reflexivity. Qed.

Example getInitials_tab :
  getInitials (js "ana" ++ tab :: js "cruz") = js "A"
  /\ Spec.initials Spec.is_whitespace (js "ana" ++ tab :: js "cruz") = js "AC".
Proof. split; reflexivity. Qed.

(** With the case mapping of Latin-1, a name of one word that starts with
    a sharp s has two initials. *)
Example getInitials_sharp_s :
  getInitials (223%N :: js "eta") = js "SS".
Proof. reflexivity. Qed.

Section Initials.
Context `{unicode : Unicode}.

Lemma split_not_nil sep s : exists piece pieces, JS.split sep s = piece :: pieces.
Proof.
  destruct s as [|c rest]; simpl; [by eexists _, _|].
  destruct (N.eqb c sep); [by eexists _, _|].
  destruct (JS.split sep rest); by eexists _, _.
Qed.

Lemma join_nosep_cons x xs :
  JS.join [] (x :: xs) = JS.element_text x ++ JS.join [] xs.
Proof.
  destruct xs as [|y ys]; [|reflexivity].
  cbn. by rewrite app_nil_r.
Qed.

Lemma tokens_head is_sep c rest :
  is_sep c = false ->
  exists t ts, Spec.tokens is_sep (c :: rest) = (c :: t) :: ts.
Proof.
  intros Hc. simpl. rewrite Hc.
  destruct rest as [|c' rest']; [by eexists _, _|].
  destruct (is_sep c'); [by eexists _, _|].
  destruct (Spec.tokens is_sep (c' :: rest')); by eexists _, _.
Qed.

(** The first code units of the pieces of a split are the first code units
    of the tokens. *)
Lemma split_first_chars s :
  JS.join [] (map JS.char0 (JS.split JS.space s))
  = Spec.concat (map Spec.first_raw (Spec.tokens Spec.is_space s)).
Proof.
  induction s as [|c r IH]; [reflexivity|].
  cbn [JS.split Spec.tokens]. unfold Spec.is_space at 1.
  destruct (N.eqb c JS.space) eqn:Hc.
  - rewrite map_cons, join_nosep_cons. exact IH.
  - destruct (split_not_nil JS.space r) as (p & ps & Hp).
    rewrite Hp in IH |- *.
    rewrite map_cons, join_nosep_cons in IH |- *.
    destruct r as [|c' r'].
    + injection Hp as <- <-. reflexivity.
    + cbn [JS.split] in Hp. unfold Spec.is_space at 1.
      destruct (N.eqb c' JS.space) eqn:Hc'.
      * injection Hp as <- <-.
        cbn [map Spec.concat Spec.first_raw JS.char0 JS.element_text app].
        f_equal. exact IH.
      * destruct (tokens_head Spec.is_space c' r' Hc') as (t & ts & Ht).
        rewrite Ht in IH |- *.
        destruct (split_not_nil JS.space r') as (p' & ps' & Hp').
        rewrite Hp' in Hp. injection Hp as <- <-.
        cbn [map Spec.concat Spec.first_raw JS.char0 JS.element_text app]
          in IH |- *.
        f_equal. by injection IH.
Qed.

Lemma split_one_word s :
  Spec.has Spec.is_space s = false -> JS.split JS.space s = [ s ].
Proof.
  induction s as [|c r IH]; [reflexivity|].
  cbn [Spec.has JS.split]. unfold Spec.is_space at 1.
  destruct (N.eqb c JS.space); [discriminate|].
  intros H. by rewrite (IH H).
Qed.

(** *** ASCII text *)

Lemma toUpperCase_ascii s :
  JS.is_ascii s = true -> JS.toUpperCase s = map JS.upper_ascii s.
Proof. intros Hs. unfold JS.toUpperCase. by rewrite Hs. Qed.

Lemma is_ascii_app s t :
  JS.is_ascii (s ++ t) = JS.is_ascii s && JS.is_ascii t.
Proof. apply forallb_app. Qed.

Lemma split_ascii sep s :
  JS.is_ascii s = true ->
  Forall (fun piece => JS.is_ascii piece = true) (JS.split sep s).
Proof.
  induction s as [|c s IH]; cbn [JS.split JS.is_ascii forallb].
  - by repeat constructor.
  - intros [Hc Hs]%andb_prop. specialize (IH Hs).
    destruct (N.eqb c sep); [by constructor|].
    destruct (JS.split sep s) as [|p ps].
    + repeat constructor. cbn. by rewrite Hc.
    + inversion_clear IH as [|? ? Hp Hps]. constructor; [|done].
      cbn. by rewrite Hc.
Qed.

Lemma first_chars_ascii pieces :
  Forall (fun piece => JS.is_ascii piece = true) pieces ->
  JS.is_ascii (JS.join [] (map JS.char0 pieces)) = true.
Proof.
  induction 1 as [|p ps Hp _ IH]; [done|].
  rewrite map_cons, join_nosep_cons, is_ascii_app, IH, andb_true_r.
  destruct p as [|c p]; [done|]. cbn in Hp |- *.
  apply andb_prop in Hp as [-> _]. done.
Qed.

Lemma initials_ascii s :
  JS.is_ascii s = true ->
  JS.is_ascii (JS.join [] (map JS.char0 (JS.split JS.space s))) = true.
Proof. intros Hs. by apply first_chars_ascii, split_ascii. Qed.

Lemma upper_concat_first ts :
  JS.is_ascii (Spec.concat (map Spec.first_raw ts)) = true ->
  map JS.upper_ascii (Spec.concat (map Spec.first_raw ts))
  = Spec.concat (map Spec.upper_first ts).
Proof.
  induction ts as [|t ts IH]; [reflexivity|].
  cbn [map Spec.concat]. rewrite is_ascii_app.
  intros [Ht Hts]%andb_prop.
  rewrite map_app, (IH Hts). unfold Spec.upper_first.
  by rewrite (toUpperCase_ascii _ Ht).
Qed.

End Initials.

(** C4, as the code has it: the initials are the upper-casing of the first
    code units of the tokens of the name that the space character
    separates (a tab or a line break separates nothing), put together in
    the order of the tokens; for a name of ASCII characters that is the
    upper-cased first character of each token, and such a name of one
    word, with no space in it, gives one character; the empty name gives
    the empty string. *)
Theorem getInitials_space_tokens `{unicode : Unicode} (name : jsstring) :
  getInitials name
  = JS.toUpperCase
      (Spec.concat (map Spec.first_raw (Spec.tokens Spec.is_space name)))
  /\ (JS.is_ascii name = true ->
      getInitials name = Spec.initials Spec.is_space name)
  /\ (JS.is_ascii name = true ->
      Spec.has Spec.is_space name = false -> name <> js "" ->
      length (getInitials name) = 1)
  /\ getInitials (js "") = js "".
Proof.
  unfold getInitials. change (js "") with (@nil code_unit). rewrite split_first_chars.
  split; [reflexivity|]. split; [|split].
  - intros Hascii. unfold Spec.initials.
    rewrite <- split_first_chars.
    rewrite (toUpperCase_ascii _ (initials_ascii _ Hascii)).
    rewrite split_first_chars. apply upper_concat_first.
    rewrite <- split_first_chars. by apply initials_ascii.
  - intros Hascii Hword Hne. rewrite <- split_first_chars.
    rewrite (split_one_word _ Hword).
    destruct name as [|c rest]; [done|].
    cbn [map JS.char0 JS.join JS.element_text].
    rewrite toUpperCase_ascii; [reflexivity|].
    cbn in Hascii |- *. apply andb_prop in Hascii as [-> _]. done.
  - reflexivity.
Qed.

Lemma getInitials_space_tokens_witness :
  JS.is_ascii (js "Juan") = true
  /\ Spec.has Spec.is_space (js "Juan") = false /\ js "Juan" <> js ""
  /\ length (getInitials (js "Juan")) = 1.
Proof.
  split; [reflexivity|]. split; [reflexivity|]. split; [discriminate|].
  apply (proj1 (proj2 (proj2 (getInitials_space_tokens (js "Juan")))));
    [reflexivity|reflexivity|discriminate].
Defined.

(** C4 as stated fails: with white space for the separator, a name whose
    two words a tab separates would have two initials; the code gives one. *)
Lemma getInitials_whitespace_counterexample :
  getInitials (js "ana" ++ tab :: js "cruz")
  <> Spec.initials Spec.is_whitespace (js "ana" ++ tab :: js "cruz").
Proof. vm_compute. discriminate. Qed.

(** ** Activity feed *)

Lemma getActivityIcon_total (t : ActivityType) :
  is_Some (getActivityIcon (type_key t)).
Proof. destruct t; vm_compute; eauto. Qed.

Lemma getStatusColorClasses_total (c : StatusColor) :
  is_Some (getStatusColorClasses (color_key c)).
Proof. destruct c; vm_compute; eauto. Qed.


Example render_default_scan_row :
  render_activity
    {| id := 1; type := scan; title := js "Scanned fruiting bag #23";
       time := js "2 hours ago"; status := js "Healthy"; statusColor := green |}
  = Some {| row_key := 1;
            holder_class :=
              (js "w-8 h-8 bg-green-600/20 rounded-full flex items-center justify-center");
            icon_class := js "text-green-400";
            row_icon := {| component := Camera; className := js "w-4 h-4" |};
            badge_class := js "bg-green-600/20 text-green-400 px-2 py-1 rounded text-xs";
            badge_text := js "Healthy" |}.
Proof. vm_compute. reflexivity. Qed.

Section Properties.
Context {number : Type} `{engine : !Engine number} `{unicode : Unicode}.

Implicit Types (w : World number) (props : ProfileTabProps number).
Implicit Types (net : Network number) (data : UserData number).

(** ** Default props *)

(** C8, as the code has it: without the [userData] prop the local user data
    is the default record, whose name is Juan Dela Cruz, and the avatar
    holder shows the initials of its three words, JDC. *)
Theorem default_name_and_initials props :
  userData props = None ->
  name (localUserData (initial_state props)) = VStr (js "Juan Dela Cruz")
  /\ render_avatar (initial_state props) = Normal (AvatarInitials (js "JDC")).
Proof.
  intros Hnone. unfold initial_state. rewrite Hnone. split; reflexivity.
Qed.

(** ** Field edits *)

Lemma field_spread_with data (k k' : UserDataKey) (v : JSValue number) :
  field (spread_with data k v) k' = if decide (k' = k) then v else field data k'.
Proof. destruct k, k'; reflexivity. Qed.

(** C5: an edit of one field leaves a state that is the prior one with
    that field replaced by the new string: every other field of the user
    data keeps its value, and so do the other three state cells. *)
Theorem handleProfileUpdate_replaces_one_field props w
    (k : UserDataKey) (v : jsstring) :
  let result := run_handleProfileUpdate props k v w in
  fst result = Normal tt
  /\ (forall k' : UserDataKey,
        field (localUserData (state (snd result))) k'
        = if decide (k' = k) then VStr v
          else field (localUserData (state w)) k')
  /\ isEditing (state (snd result)) = isEditing (state w)
  /\ formError (state (snd result)) = formError (state w)
  /\ isAuthLoading (state (snd result)) = isAuthLoading (state w).
Proof.
  unfold run_handleProfileUpdate, handleProfileUpdate, bind, setLocalUserData,
    modify, emit, ret.
  destruct (onUpdateProfile props); cbn; repeat split;
    intros; apply field_spread_with.
Qed.

(** C6: with the callback supplied, an edit invokes it once, on the whole
    updated record, the one that is stored: its edited field is the new
    string and every other field is the one from before; without the
    callback, nothing is invoked. *)
Theorem handleProfileUpdate_calls_back props w (k : UserDataKey) (v : jsstring) :
  let result := run_handleProfileUpdate props k v w in
  let updatedData := spread_with (localUserData (state w)) k (VStr v) in
  localUserData (state (snd result)) = updatedData
  /\ trace (snd result)
     = trace w ++ match onUpdateProfile props with
                  | Some cb => [ Call_onUpdateProfile cb updatedData ]
                  | None => []
                  end
  /\ (forall k' : UserDataKey,
        field updatedData k'
        = if decide (k' = k) then VStr v
          else field (localUserData (state w)) k').
Proof.
  unfold run_handleProfileUpdate, handleProfileUpdate, bind, setLocalUserData,
    modify, emit, ret.
  destruct (onUpdateProfile props); cbn; repeat split;
    try (intros; apply field_spread_with).
  by rewrite app_nil_r.
Qed.

Ltac unfold_login :=
  unfold run_handleGoogleLogin, handleGoogleLogin, try_catch_finally, fetch,
    bind, lift, throw, ret, emit, setIsAuthLoading, setFormError,
    setLocalUserData, modify, new_Error, login_request.

(** C9: whatever the network answers, one request leaves the handler, and no
    other event: a POST to /api/auth/google whose body is the JSON text of
    the object with the token as its [id_token]. *)
Theorem handleGoogleLogin_one_request net w (idToken : jsstring) :
  trace (snd (run_handleGoogleLogin net idToken w))
  = trace w ++ [ login_request idToken ].
Proof.
  unfold_login.
  destruct net as [e|[is_ok [result|e]]]; cbn; try reflexivity.
  destruct is_ok; cbn.
  - destruct (get result (js "user")) as [user|e]; cbn; [|reflexivity].
    destruct (get user (js "full_name")); cbn; [|reflexivity].
    destruct (get user (js "email")); reflexivity.
  - destruct (ToString _); reflexivity.
Qed.

(** C2: on every path, the answer being ok or not, [fetch] or the parse
    of the body failing, the handler ends normally, with the loading flag
    down. *)
Theorem handleGoogleLogin_always_settles net w (idToken : jsstring) :
  fst (run_handleGoogleLogin net idToken w) = Normal tt
  /\ isAuthLoading (state (snd (run_handleGoogleLogin net idToken w))) = false.
Proof.
  unfold_login.
  destruct net as [e|[is_ok [result|e]]]; cbn; try (split; reflexivity).
  destruct is_ok; cbn.
  - destruct (get result (js "user")) as [user|e]; cbn; [|split; reflexivity].
    destruct (get user (js "full_name")); cbn; [|split; reflexivity].
    destruct (get user (js "email")); split; reflexivity.
  - destruct (ToString _); split; reflexivity.
Qed.

(** C1: after an ok answer whose body has a user object, the name and the
    email of the local user data are the [full_name] and the [email] of
    that object, and the phone, the join date, the experience level and
    the avatar (and the favourite method) are the ones from before the
    call. *)
Theorem handleGoogleLogin_success (response : Response number) w
    (idToken : jsstring) (result : JSValue number)
    (user : list (jsstring * JSValue number)) :
  ok response = true ->
  json response = Normal result ->
  get result (js "user") = Normal (VObj user) ->
  let before := localUserData (state w) in
  let after :=
    localUserData
      (state (snd (run_handleGoogleLogin (fetch_resolves response) idToken w))) in
  get (VObj user) (js "full_name") = Normal (name after)
  /\ get (VObj user) (js "email") = Normal (email after)
  /\ phone after = phone before
  /\ joinDate after = joinDate before
  /\ experienceLevel after = experienceLevel before
  /\ avatar after = avatar before
  /\ favoriteMethod after = favoriteMethod before.
Proof.
  intros Hok Hjson Huser. unfold_login.
  destruct response as [is_ok parsed]. cbn in Hok, Hjson. subst is_ok parsed.
  cbn. rewrite Huser. cbn. repeat split.
Qed.

Lemma message_or_default_not_empty (msg : jsstring) :
  message_or_default msg <> js "".
Proof.
  unfold message_or_default.
  case_bool_decide; [discriminate|done].
Qed.

(** C3, as the code has it: after an answer that is not ok, the message
    shown is the [error] of the body when that is a string that is not
    empty, and the fixed message when the body has no [error] or an empty
    one ([||] takes the empty string for absent); the handler ends
    normally. *)
Theorem handleGoogleLogin_failure_message (response : Response number) w
    (idToken : jsstring) (result : JSValue number) :
  ok response = false ->
  json response = Normal result ->
  let out := run_handleGoogleLogin (fetch_resolves response) idToken w in
  fst out = Normal tt
  /\ (forall X : jsstring,
        opt_get result (js "error") = VStr X -> X <> (js "") ->
        formError (state (snd out)) = Some X)
  /\ (opt_get result (js "error") = VUndefined \/ opt_get result (js "error") = VStr (js "") ->
      formError (state (snd out)) = Some login_failed).
Proof.
  intros Hok Hjson. unfold_login.
  destruct response as [is_ok parsed]. cbn in Hok, Hjson. subst is_ok parsed.
  cbn. split; [|split].
  - destruct (ToString _); reflexivity.
  - intros X -> HX. unfold or_else. cbn.
    rewrite bool_decide_eq_false_2 by done. cbn.
    unfold message_or_default. by rewrite bool_decide_eq_false_2.
  - intros [-> | ->]; reflexivity.
Qed.

(** C10, as the code has it: after an ok answer with no user at all (the
    body is not JSON, or it has no [user], or a [null] one), the failure is
    caught: the handler ends normally, a message that is not empty is
    shown, and the local user data is the one from before the call. *)
Theorem handleGoogleLogin_missing_user (response : Response number) w
    (idToken : jsstring) :
  ok response = true ->
  no_user (json response) = true ->
  let out := run_handleGoogleLogin (fetch_resolves response) idToken w in
  fst out = Normal tt
  /\ (exists msg : jsstring,
        formError (state (snd out)) = Some msg /\ msg <> js "")
  /\ localUserData (state (snd out)) = localUserData (state w).
Proof.
  intros Hok Hno. unfold_login.
  destruct response as [is_ok [result|e]]; cbn in Hok, Hno; subst is_ok; cbn.
  - destruct (get result (js "user")) as [user|e]; cbn.
    + destruct user; try discriminate; cbn;
        eauto using message_or_default_not_empty.
    + eauto using message_or_default_not_empty.
  - eauto using message_or_default_not_empty.
Qed.

End Properties.

(** ** Instances on the example engine *)

Lemma default_name_and_initials_witness :
  userData no_props = None
  /\ name (localUserData (initial_state no_props)) = VStr (js "Juan Dela Cruz")
  /\ render_avatar (initial_state no_props) = Normal (AvatarInitials (js "JDC")).
Proof.
  split; [reflexivity|].
  apply (default_name_and_initials no_props). reflexivity.
Defined.

(** C8 as stated fails: the initials shown for the default name are not
    JD. *)
Lemma default_initials_counterexample :
  userData no_props = None
  /\ render_avatar (initial_state no_props) <> Normal (AvatarInitials (js "JD")).
Proof. split; [reflexivity|]. vm_compute. discriminate. Qed.

Lemma handleGoogleLogin_success_witness :
  let before := localUserData (state first_world) in
  let after :=
    localUserData
      (state (snd (run_handleGoogleLogin
                     (answer true (VObj [ (js "user", VObj maria) ]))
                     (js "token") first_world))) in
  get (VObj maria) (js "full_name") = Normal (name after)
  /\ get (VObj maria) (js "email") = Normal (email after)
  /\ phone after = phone before
  /\ joinDate after = joinDate before
  /\ experienceLevel after = experienceLevel before
  /\ avatar after = avatar before
  /\ favoriteMethod after = favoriteMethod before.
Proof.
  exact (handleGoogleLogin_success
           {| ok := true; json := Normal (VObj [ (js "user", VObj maria) ]) |}
           first_world (js "token") (VObj [ (js "user", VObj maria) ]) maria
           eq_refl eq_refl eq_refl).
Defined.

Example handleGoogleLogin_success_example :
  let after :=
    localUserData
      (state (snd (run_handleGoogleLogin
                     (answer true (VObj [ (js "user", VObj maria) ]))
                     (js "token") first_world))) in
  name after = VStr (js "Maria Clara")
  /\ email after = VStr (js "maria@example.com")
  /\ phone after = VStr (js "+63 912 345 6789")
  /\ avatar after = VNull.
Proof. repeat split. Qed.

Lemma handleGoogleLogin_failure_message_witness :
  formError
    (state (snd (run_handleGoogleLogin
                   (answer false (VObj [ (js "error", VStr (js "Invalid token")) ]))
                   (js "token") first_world)))
  = Some (js "Invalid token").
Proof.
  apply (proj1 (proj2 (handleGoogleLogin_failure_message
                         {| ok := false;
                            json := Normal (VObj [ (js "error", VStr (js "Invalid token")) ]) |}
                         first_world (js "token") _ eq_refl eq_refl))
           (js "Invalid token"));
    [reflexivity|discriminate].
Defined.

(** C3 as stated fails: the body [{"error": ""}] has an error field, of
    value the empty string, and the message shown is not that value but the
    fixed one. *)
Lemma handleGoogleLogin_empty_error_counterexample :
  let result : JSValue Empty_set := VObj [ (js "error", VStr (js "")) ] in
  let out := run_handleGoogleLogin (answer false result) (js "token") first_world in
  get result (js "error") = Normal (VStr (js ""))
  /\ formError (state (snd out)) <> Some (js "")
  /\ formError (state (snd out)) = Some login_failed.
Proof. vm_compute. repeat split. discriminate. Qed.

Lemma handleGoogleLogin_missing_user_witness :
  let out := run_handleGoogleLogin (answer true (VObj [])) (js "token") first_world in
  fst out = Normal tt
  /\ (exists msg : jsstring, formError (state (snd out)) = Some msg /\ msg <> js "")
  /\ localUserData (state (snd out)) = localUserData (state first_world).
Proof.
  apply (handleGoogleLogin_missing_user
           {| ok := true; json := Normal (VObj []) |} first_world (js "token"));
    reflexivity.
Defined.

(** C10 as stated fails: the body [{"user": "guest"}] has no user object,
    and yet nothing is thrown: no message is set, and a record whose name
    and email are [undefined] replaces the local user data. *)
Lemma handleGoogleLogin_user_not_object_counterexample :
  let result : JSValue Empty_set := VObj [ (js "user", VStr (js "guest")) ] in
  let out := run_handleGoogleLogin (answer true result) (js "token") first_world in
  has_user_object result = false
  /\ formError (state (snd out)) = None
  /\ name (localUserData (state (snd out))) = VUndefined
  /\ localUserData (state (snd out)) <> localUserData (state first_world).
Proof. vm_compute. repeat split. discriminate. Qed.

Example handleGoogleLogin_type_error_message :
  formError
    (state (snd (run_handleGoogleLogin (answer true (VObj [])) (js "token")
                   first_world)))
  = Some (js "Cannot read properties of undefined (reading 'full_name')").
Proof. reflexivity. Qed.

Example handleGoogleLogin_network_down :
  let out :=
    run_handleGoogleLogin (fetch_rejects {| message := js "Failed to fetch" |})
      (js "token") first_world in
  formError (state (snd out)) = Some (js "Failed to fetch")
  /\ isAuthLoading (state (snd out)) = false
  /\ trace (snd out) = [ login_request (js "token") ].
Proof. repeat split. Qed.

Example handleGoogleLogin_body_not_json :
  let out :=
    run_handleGoogleLogin
      (fetch_resolves
         {| ok := false;
            json := Throw {| message := js "Unexpected token < in JSON" |} |})
      (js "token") first_world in
  fst out = Normal tt
  /\ formError (state (snd out)) = Some (js "Unexpected token < in JSON").
Proof. repeat split. Qed.


(** * Further properties *)

(** ** Initials *)

Section MoreInitials.
Context `{unicode : Unicode}.

Lemma split_app_sep sep a b :
  JS.split sep (a ++ sep :: b) = JS.split sep a ++ JS.split sep b.
Proof.
  induction a as [|c a IH].
  - cbn. by rewrite N.eqb_refl.
  - rewrite <- app_comm_cons. cbn [JS.split].
    destruct (N.eqb c sep); rewrite IH; [reflexivity|].
    by destruct (split_not_nil sep a) as (p & ps & ->).
Qed.

Lemma join_nosep_app xs ys :
  JS.join [] (xs ++ ys) = JS.join [] xs ++ JS.join [] ys.
Proof.
  induction xs as [|x xs IH]; [reflexivity|].
  by rewrite <- app_comm_cons, !join_nosep_cons, IH, app_assoc.
Qed.

(** X1: for two names of ASCII characters, the initials of the two put
    together with a space between them are the initials of the first
    followed by the initials of the second. *)
Theorem getInitials_app_space (a b : jsstring) :
  JS.is_ascii a = true -> JS.is_ascii b = true ->
  getInitials (a ++ JS.space :: b) = getInitials a ++ getInitials b.
Proof.
  intros Ha Hb. unfold getInitials. change (js "") with (@nil code_unit).
  rewrite split_app_sep, map_app, join_nosep_app.
  pose proof (initials_ascii a Ha) as Hia.
  pose proof (initials_ascii b Hb) as Hib.
  rewrite (toUpperCase_ascii _ Hia), (toUpperCase_ascii _ Hib).
  rewrite toUpperCase_ascii; [apply map_app|].
  rewrite is_ascii_app. apply andb_true_intro. by split.
Qed.

Lemma upper_ascii_cases (c : code_unit) :
  ((97 <= c <= 122)%N /\ JS.upper_ascii c = (c - 32)%N)
  \/ ((c < 97 \/ 122 < c)%N /\ JS.upper_ascii c = c).
Proof.
  unfold JS.upper_ascii.
  destruct (N.leb_spec 97 c), (N.leb_spec c 122); cbn [andb];
    [left|right..]; split; (lia || reflexivity).
Qed.

Lemma upper_ascii_space (c : code_unit) :
  N.eqb (JS.upper_ascii c) JS.space = N.eqb c JS.space.
Proof.
  destruct (upper_ascii_cases c) as [[H E]|[H E]]; rewrite E; [|reflexivity].
  unfold JS.space. transitivity false; [|symmetry]; apply N.eqb_neq; lia.
Qed.

Lemma upper_ascii_idemp (c : code_unit) :
  JS.upper_ascii (JS.upper_ascii c) = JS.upper_ascii c.
Proof.
  destruct (upper_ascii_cases c) as [[H E]|[H E]]; rewrite E; [|exact E].
  destruct (upper_ascii_cases (c - 32)%N) as [[H' _]|[_ E']]; [lia|exact E'].
Qed.

Lemma upper_ascii_below (c : code_unit) :
  (JS.upper_ascii c <? 128)%N = (c <? 128)%N.
Proof.
  destruct (upper_ascii_cases c) as [[H E]|[H E]]; rewrite E; [|reflexivity].
  transitivity true; [|symmetry]; apply N.ltb_lt; lia.
Qed.

Lemma is_ascii_upper (s : jsstring) :
  JS.is_ascii (map JS.upper_ascii s) = JS.is_ascii s.
Proof.
  unfold JS.is_ascii. induction s as [|c s IH]; [reflexivity|].
  cbn [map forallb]. by rewrite upper_ascii_below, IH.
Qed.

Lemma has_space_upper (s : jsstring) :
  Spec.has Spec.is_space (map JS.upper_ascii s) = Spec.has Spec.is_space s.
Proof.
  induction s as [|c s IH]; [reflexivity|].
  cbn [map Spec.has]. unfold Spec.is_space at 1 3.
  by rewrite upper_ascii_space, IH.
Qed.

Lemma has_app p (s t : jsstring) :
  Spec.has p (s ++ t) = Spec.has p s || Spec.has p t.
Proof.
  induction s as [|c s IH]; [reflexivity|].
  cbn [app Spec.has]. rewrite IH. by rewrite orb_assoc.
Qed.

(** The pieces of a split hold no separator. *)
Lemma split_pieces_no_sep sep s :
  Forall (fun piece => Spec.has (fun c => N.eqb c sep) piece = false)
         (JS.split sep s).
Proof.
  induction s as [|c s IH]; cbn [JS.split].
  - by constructor.
  - destruct (N.eqb c sep) eqn:Hc; [by constructor|].
    destruct (JS.split sep s) as [|p ps];
      [by repeat constructor; cbn; rewrite Hc|].
    inversion_clear IH as [|? ? Hp Hps].
    constructor; [|done]. cbn [Spec.has]. by rewrite Hc, Hp.
Qed.

Lemma first_chars_count (pieces : list jsstring) :
  Forall (fun piece => Spec.has Spec.is_space piece = false) pieces ->
  length (JS.join [] (map JS.char0 pieces))
  = length (filter (fun piece : jsstring => piece <> []) pieces)
  /\ Spec.has Spec.is_space (JS.join [] (map JS.char0 pieces)) = false.
Proof.
  induction 1 as [|p ps Hp _ [IHlen IHhas]]; [done|].
  rewrite map_cons, join_nosep_cons, length_app, has_app, IHlen, IHhas.
  destruct p as [|c p].
  - by rewrite filter_cons_False by naive_solver.
  - rewrite filter_cons_True by done. cbn in Hp |- *.
    apply orb_false_elim in Hp as [-> _]. done.
Qed.

(** X2: for a name of ASCII characters there is one initial for each
    piece of the name between spaces that is not empty, and no initial is
    a space: leading, trailing and repeated spaces add nothing. *)
Theorem getInitials_one_per_word (name : jsstring) :
  JS.is_ascii name = true ->
  length (getInitials name)
  = length (filter (fun piece : jsstring => piece <> [])
                   (JS.split JS.space name))
  /\ Spec.has Spec.is_space (getInitials name) = false.
Proof.
  intros Hascii. unfold getInitials. change (js "") with (@nil code_unit).
  rewrite (toUpperCase_ascii _ (initials_ascii _ Hascii)).
  rewrite length_map, has_space_upper.
  apply first_chars_count, split_pieces_no_sep.
Qed.

Lemma split_upper (s : jsstring) :
  JS.split JS.space (map JS.upper_ascii s)
  = map (map JS.upper_ascii) (JS.split JS.space s).
Proof.
  induction s as [|c s IH]; [reflexivity|].
  cbn [map JS.split]. rewrite upper_ascii_space, IH.
  destruct (N.eqb c JS.space); [reflexivity|].
  by destruct (JS.split JS.space s).
Qed.

Lemma first_chars_upper (pieces : list jsstring) :
  JS.join [] (map JS.char0 (map (map JS.upper_ascii) pieces))
  = map JS.upper_ascii (JS.join [] (map JS.char0 pieces)).
Proof.
  induction pieces as [|p ps IH]; [reflexivity|].
  rewrite !map_cons, !join_nosep_cons, map_app.
  f_equal; [by destruct p|exact IH].
Qed.

Lemma map_upper_idemp (s : jsstring) :
  map JS.upper_ascii (map JS.upper_ascii s) = map JS.upper_ascii s.
Proof.
  induction s as [|c s IH]; [reflexivity|].
  cbn. by rewrite upper_ascii_idemp, IH.
Qed.

(** X3: for a name of ASCII characters, the initials do not depend on the
    case of the letters of the name, and upper-casing them again changes
    nothing. *)
Theorem getInitials_case_insensitive (name : jsstring) :
  JS.is_ascii name = true ->
  getInitials (JS.toUpperCase name) = getInitials name
  /\ JS.toUpperCase (getInitials name) = getInitials name.
Proof.
  intros Hascii. unfold getInitials. change (js "") with (@nil code_unit).
  pose proof (initials_ascii _ Hascii) as Hinit.
  rewrite (toUpperCase_ascii name Hascii).
  rewrite split_upper, first_chars_upper.
  rewrite !toUpperCase_ascii; try done;
    rewrite ?is_ascii_upper; try done.
  split; apply map_upper_idemp.
Qed.

End MoreInitials.

Lemma join_cons_cons sep x y rest :
  JS.join sep (x :: y :: rest)
  = JS.element_text x ++ sep ++ JS.join sep (y :: rest).
Proof. reflexivity. Qed.

(** X4: splitting loses nothing of the name: its pieces, joined again with
    the separator, are the name. *)
Theorem split_join_roundtrip (sep : code_unit) (s : jsstring) :
  JS.join [ sep ] (map Some (JS.split sep s)) = s.
Proof.
  induction s as [|c s IH]; [reflexivity|].
  cbn [JS.split]. destruct (N.eqb c sep) eqn:Hc.
  - apply N.eqb_eq in Hc as ->.
    destruct (split_not_nil sep s) as (p & ps & Hp). rewrite Hp in IH |- *.
    rewrite !map_cons, join_cons_cons. rewrite !map_cons in IH.
    by rewrite IH.
  - destruct (split_not_nil sep s) as (p & ps & Hp). rewrite Hp in IH |- *.
    rewrite !map_cons in IH |- *.
    destruct ps as [|q qs].
    + cbn in IH |- *. by rewrite IH.
    + rewrite map_cons, join_cons_cons in IH |- *.
      cbn [JS.element_text] in IH |- *. rewrite <- app_comm_cons. by rewrite IH.
Qed.

(** ** Activity feed *)

(** X5: the table of the icons has three properties of its own, the names
    of the three activity types (in lower case): no type is without its
    icon, and the table has no other entry. *)
Theorem iconMap_own_keys (key : jsstring) :
  is_Some (iconMap !! key) <-> exists t : ActivityType, type_key t = key.
Proof.
  unfold iconMap. split.
  - intros [icon Hicon].
    destruct (decide (key = js "scan")) as [->|?]; [by exists scan|].
    destruct (decide (key = js "achievement")) as [->|?]; [by exists achievement|].
    destruct (decide (key = js "alert")) as [->|?]; [by exists alert|].
    by rewrite !lookup_insert_ne, lookup_singleton_ne in Hicon.
  - intros [t <-]. by destruct t; vm_compute; eexists.
Qed.

(** X6: the table of the palettes has four properties of its own, the
    names of the four status colours: no colour is without its palette,
    and the table has no other entry. *)
Theorem colorMap_own_keys (key : jsstring) :
  is_Some (colorMap !! key) <-> exists c : StatusColor, color_key c = key.
Proof.
  unfold colorMap. split.
  - intros [classes Hclasses].
    destruct (decide (key = js "green")) as [->|?]; [by exists green|].
    destruct (decide (key = js "yellow")) as [->|?]; [by exists yellow|].
    destruct (decide (key = js "red")) as [->|?]; [by exists red|].
    destruct (decide (key = js "blue")) as [->|?]; [by exists blue|].
    by rewrite !lookup_insert_ne, lookup_singleton_ne in Hclasses.
  - intros [c <-]. by destruct c; vm_compute; eexists.
Qed.

(** X7: the classes of a colour are built on its name in one way: the
    background and the icon background are the same class
    bg-<colour>-600/20, and the text class is text-<colour>-400. *)
Theorem getStatusColorClasses_uniform (c : StatusColor) :
  getStatusColorClasses (color_key c)
  = Some {| bg := js "bg-" ++ color_key c ++ js "-600/20";
            text := js "text-" ++ color_key c ++ js "-400";
            iconBg := js "bg-" ++ color_key c ++ js "-600/20" |}.
Proof. destruct c; vm_compute; reflexivity. Qed.

Lemma render_activity_row (a : ActivityItem) :
  exists row, render_activity a = Some row
              /\ row_key row = id a /\ badge_text row = status a.
Proof.
  unfold render_activity.
  destruct (getStatusColorClasses_total (statusColor a)) as [p ->].
  destruct (getActivityIcon_total (type a)) as [i ->].
  cbn. eauto.
Qed.

Lemma mapM_render_activity (items : list ActivityItem) :
  exists rows, mapM render_activity items = Some rows
               /\ map row_key rows = map id items
               /\ map badge_text rows = map status items.
Proof.
  induction items as [|a items (rows & Hrows & Hkeys & Htexts)].
  - by exists [].
  - destruct (render_activity_row a) as (row & Hrow & Hkey & Htext).
    exists (row :: rows). cbn. rewrite Hrow, Hrows. cbn.
    by rewrite Hkey, Hkeys, Htext, Htexts.
Qed.

Section MoreProperties.
Context {number : Type} `{engine : !Engine number} `{unicode : Unicode}.

Implicit Types (w : World number) (props : ProfileTabProps number).
Implicit Types (net : Network number) (data : UserData number).

(** X8: the feed always renders, whatever list the parent gives: one row
    for each item, in the order of the list, keyed by the id of its item
    and showing its status. *)
Theorem render_feed_rows props :
  let items := default defaultActivityData (activityData props) in
  exists rows, render_feed props = Some rows
               /\ length rows = length items
               /\ map row_key rows = map id items
               /\ map badge_text rows = map status items.
Proof.
  cbv zeta. unfold render_feed.
  destruct (mapM_render_activity
              (default defaultActivityData (activityData props)))
    as (rows & Hrows & Hkeys & Htexts).
  exists rows. repeat split; try done.
  by rewrite <- (length_map row_key), Hkeys, length_map.
Qed.

(** ** The avatar button and the edit mode *)

(** X9: a click on the avatar button leaves the state of the component as
    it is; it calls [onUpdateAvatar] once when the parent gave it, and does
    nothing at all when not. *)
Theorem handleAvatarUpdate_only_calls_back props w :
  let out := run_handleAvatarUpdate props w in
  fst out = Normal tt
  /\ state (snd out) = state w
  /\ trace (snd out)
     = trace w ++ match onUpdateAvatar props with
                  | Some cb => [ Call_onUpdateAvatar cb ]
                  | None => []
                  end.
Proof.
  unfold run_handleAvatarUpdate, handleAvatarUpdate, emit, ret.
  destruct (onUpdateAvatar props); cbn; repeat split.
  by rewrite app_nil_r.
Qed.

(** X10: the edit button toggles: one click flips the edit mode, a second
    click gives back the world of before the first; leaving the input
    ends the edit mode, whatever the clicks before. *)
Theorem edit_toggle_twice w :
  isEditing (state (snd (run_onEditClick w))) = negb (isEditing (state w))
  /\ snd (run_onEditClick (snd (run_onEditClick w))) = w
  /\ isEditing (state (snd (onNameBlur (snd (run_onEditClick w))))) = false
  /\ snd (onNameBlur (snd (run_onEditClick w))) = snd (onNameBlur w).
Proof.
  destruct w as [[editing data err loading] tr].
  unfold run_onEditClick, onEditClick, onNameBlur, setIsEditing, modify. cbn.
  repeat split. by rewrite negb_involutive.
Qed.

(** ** Field edits, one after the other *)

Lemma spread_with_twice data (k : UserDataKey) (v v' : JSValue number) :
  spread_with (spread_with data k v) k v' = spread_with data k v'.
Proof. by destruct k. Qed.

Lemma spread_with_swap data (k k' : UserDataKey) (v v' : JSValue number) :
  k <> k' ->
  spread_with (spread_with data k v) k' v'
  = spread_with (spread_with data k' v') k v.
Proof. by destruct k, k'. Qed.

Lemma run_handleProfileUpdate_data props w (k : UserDataKey) (v : jsstring) :
  localUserData (state (snd (run_handleProfileUpdate props k v w)))
  = spread_with (localUserData (state w)) k (VStr v).
Proof.
  unfold run_handleProfileUpdate, handleProfileUpdate, bind, setLocalUserData,
    modify, emit, ret.
  by destruct (onUpdateProfile props).
Qed.

(** X11: of two edits of one field, each handled by the render that
    follows the one before, the second wins: the user data is the one the
    second edit alone would give. *)
Theorem handleProfileUpdate_last_edit_wins props w (k : UserDataKey)
    (v1 v2 : jsstring) :
  localUserData
    (state (snd (run_handleProfileUpdate props k v2
                   (snd (run_handleProfileUpdate props k v1 w)))))
  = localUserData (state (snd (run_handleProfileUpdate props k v2 w))).
Proof. by rewrite !run_handleProfileUpdate_data, spread_with_twice. Qed.

(** X12: edits of two different fields give the same user data in either
    order. *)
Theorem handleProfileUpdate_edits_commute props w (k1 k2 : UserDataKey)
    (v1 v2 : jsstring) :
  k1 <> k2 ->
  localUserData
    (state (snd (run_handleProfileUpdate props k2 v2
                   (snd (run_handleProfileUpdate props k1 v1 w)))))
  = localUserData
      (state (snd (run_handleProfileUpdate props k1 v1
                     (snd (run_handleProfileUpdate props k2 v2 w))))).
Proof.
  intros Hne. rewrite !run_handleProfileUpdate_data. by apply spread_with_swap.
Qed.

Lemma type_name_cons props (target_value : jsstring) (texts : list jsstring) w :
  type_name props (target_value :: texts) w
  = type_name props texts (snd (run_onNameChange props target_value w)).
Proof. reflexivity. Qed.

Lemma run_onNameChange_world props (target_value : jsstring) w :
  localUserData (state (snd (run_onNameChange props target_value w)))
  = spread_with (localUserData (state w)) key_name (VStr target_value)
  /\ trace (snd (run_onNameChange props target_value w))
     = trace w ++ match onUpdateProfile props with
                  | Some cb =>
                      [ Call_onUpdateProfile cb
                          (spread_with (localUserData (state w)) key_name
                                       (VStr target_value)) ]
                  | None => []
                  end.
Proof.
  unfold run_onNameChange, onNameChange, handleProfileUpdate, bind,
    setLocalUserData, modify, emit, ret.
  destruct (onUpdateProfile props); cbn; split; try reflexivity.
  by rewrite app_nil_r.
Qed.

(** X13: typing in the name field, one change event for each text of the
    field: the parent is called once for each event, in order, each time
    with the whole record in which the name is the text of that event and
    the other fields are the ones from before the typing; the name kept
    at the end is the last text. *)
Theorem type_name_notifies_each_change props (texts : list jsstring) w :
  let before := localUserData (state w) in
  let typed (t : jsstring) := spread_with before key_name (VStr t) in
  trace (type_name props texts w)
  = trace w ++ match onUpdateProfile props with
               | Some cb => map (fun t => Call_onUpdateProfile cb (typed t)) texts
               | None => []
               end
  /\ localUserData (state (type_name props texts w))
     = from_option typed before (last texts).
Proof.
  cbv zeta. revert w. induction texts as [|t texts IH]; intros w.
  - cbn. split; [|reflexivity]. destruct (onUpdateProfile props); by rewrite app_nil_r.
  - rewrite type_name_cons.
    destruct (IH (snd (run_onNameChange props t w))) as [Htrace Hdata].
    destruct (run_onNameChange_world props t w) as [Hd Ht].
    rewrite Htrace, Hdata, Hd, Ht. split.
    + destruct (onUpdateProfile props) as [cb|].
      * rewrite <- app_assoc. cbn.
        rewrite (map_ext _ (fun t' => Call_onUpdateProfile cb
                   (spread_with (localUserData (state w)) key_name (VStr t'))));
          [reflexivity|].
        intros t'. reflexivity.
      * by rewrite !app_nil_r.
    + rewrite last_cons. by destruct (last texts).
Qed.

(** X14: while there is no avatar image, the holder shows the initials of
    the text just typed in the name field, whatever the name was before
    (also one that was not a string). *)
Theorem typed_name_shows_its_initials props (target_value : jsstring) w :
  truthy (avatar (localUserData (state w))) = false ->
  render_avatar (state (snd (run_onNameChange props target_value w)))
  = Normal (AvatarInitials (getInitials target_value)).
Proof.
  intros Havatar. unfold render_avatar.
  destruct (run_onNameChange_world props target_value w) as [-> _].
  cbn. by rewrite Havatar.
Qed.

End MoreProperties.

(** ** Sign-in, and what is shown after it *)

Section SignIn.
Context {number : Type} `{engine : !Engine number} `{unicode : Unicode}.

Implicit Types (w : World number) (net : Network number).

Ltac unfold_sign_in :=
  unfold run_handleGoogleLogin, handleGoogleLogin, try_catch_finally, fetch,
    bind, lift, throw, ret, emit, setIsAuthLoading, setFormError,
    setLocalUserData, modify, new_Error, login_request.

(** Every run of the handler, in one statement. *)
Lemma run_handleGoogleLogin_cases net (idToken : jsstring) w :
  let out := run_handleGoogleLogin net idToken w in
  fst out = Normal tt
  /\ trace (snd out) = trace w ++ [ login_request idToken ]
  /\ isEditing (state (snd out)) = isEditing (state w)
  /\ isAuthLoading (state (snd out)) = false
  /\ if login_succeeds net
     then formError (state (snd out)) = None
     else exists msg : jsstring,
         formError (state (snd out)) = Some msg /\ msg <> js ""
         /\ localUserData (state (snd out)) = localUserData (state w).
Proof.
  unfold_sign_in.
  destruct net as [e|[is_ok [result|e]]]; cbn.
  - repeat split. eauto using message_or_default_not_empty.
  - destruct is_ok; cbn.
    + destruct (get result (js "user")) as [user|e]; cbn.
      * destruct user; cbn; repeat split;
          eauto using message_or_default_not_empty.
      * repeat split. eauto using message_or_default_not_empty.
    + destruct (ToString _); cbn; repeat split;
        eauto using message_or_default_not_empty.
  - rewrite andb_false_r. repeat split.
    eauto using message_or_default_not_empty.
Qed.

(** X15: the sign-in ends without a message exactly when the answer is
    ok and its body has a user that is neither missing nor [null]: a
    message from an earlier attempt is then cleared; in every other case
    a message is set. The edit mode is never changed. *)
Theorem handleGoogleLogin_message_iff_failure net (idToken : jsstring) w :
  let out := run_handleGoogleLogin net idToken w in
  (formError (state (snd out)) = None <-> login_succeeds net = true)
  /\ isEditing (state (snd out)) = isEditing (state w).
Proof.
  destruct (run_handleGoogleLogin_cases net idToken w)
    as (_ & _ & Hedit & _ & Hcases).
  cbv zeta. split; [|exact Hedit].
  destruct (login_succeeds net).
  - by split.
  - destruct Hcases as (msg & Hmsg & _). rewrite Hmsg. by split.
Qed.

(** X16: a sign-in that fails, in whatever way (the network is down, the
    answer is not ok, the body is not JSON or has no user), leaves the
    local user data as it was and sets a message that is not empty. *)
Theorem handleGoogleLogin_failure_keeps_data net (idToken : jsstring) w :
  login_succeeds net = false ->
  let out := run_handleGoogleLogin net idToken w in
  localUserData (state (snd out)) = localUserData (state w)
  /\ exists msg : jsstring, formError (state (snd out)) = Some msg /\ msg <> js "".
Proof.
  intros Hfail.
  destruct (run_handleGoogleLogin_cases net idToken w)
    as (_ & _ & _ & _ & Hcases).
  rewrite Hfail in Hcases. destruct Hcases as (msg & Hmsg & Hne & Hdata).
  cbv zeta. eauto.
Qed.

(** X17: after a sign-in, the line of the error shows the message that is
    stored: the handler never stores an empty message, which the view
    would not show. *)
Theorem render_error_after_login net (idToken : jsstring) w :
  let after := state (snd (run_handleGoogleLogin net idToken w)) in
  render_error after = formError after.
Proof.
  destruct (run_handleGoogleLogin_cases net idToken w)
    as (_ & _ & _ & _ & Hcases).
  cbv zeta. unfold render_error.
  destruct (login_succeeds net).
  - by rewrite Hcases.
  - destruct Hcases as (msg & -> & Hne & _). cbn.
    by rewrite bool_decide_eq_false_2.
Qed.

(** X18: a click on the sign-in button does nothing when the prompt is
    dismissed or left empty: no request, and the same state; with a token
    typed, it sends the one request, with that token, and ends normally
    with the loading flag down. *)
Theorem onSignInClick_needs_a_token (demoIdToken : option jsstring) net w :
  let out := run_onSignInClick demoIdToken net w in
  match demoIdToken with
  | None => out = (Normal tt, w)
  | Some token =>
      if bool_decide (token = js "")
      then out = (Normal tt, w)
      else fst out = Normal tt
           /\ trace (snd out) = trace w ++ [ login_request token ]
           /\ isAuthLoading (state (snd out)) = false
  end.
Proof.
  unfold run_onSignInClick, onSignInClick, ret. cbn [truthy].
  destruct demoIdToken as [token|]; [|reflexivity].
  destruct (bool_decide (token = js "")); cbn [negb]; [reflexivity|].
  destruct (run_handleGoogleLogin_cases net token w)
    as (Hnormal & Htrace & _ & Hloading & _).
  by repeat split.
Qed.

(** X19: an ok answer whose user object has no [full_name] is taken for a
    success: no message is set, the name becomes [undefined], and, while
    there is no avatar image, the next rendering of the avatar holder
    throws on [name.split]. *)
Theorem login_without_full_name_breaks_avatar (response : Response number) w
    (idToken : jsstring) (result : JSValue number)
    (user : list (jsstring * JSValue number)) :
  ok response = true ->
  json response = Normal result ->
  get result (js "user") = Normal (VObj user) ->
  own_property (js "full_name") user = None ->
  truthy (avatar (localUserData (state w))) = false ->
  let after :=
    state (snd (run_handleGoogleLogin (fetch_resolves response) idToken w)) in
  formError after = None
  /\ name (localUserData after) = VUndefined
  /\ render_avatar after
     = Throw {| message := TypeError_message VUndefined (js "split") |}.
Proof.
  intros Hok Hjson Huser Hname Havatar. unfold_sign_in.
  destruct response as [is_ok parsed]. cbn in Hok, Hjson. subst is_ok parsed.
  cbn. rewrite Huser. cbn. rewrite Hname. cbn.
  unfold render_avatar. cbn. by rewrite Havatar.
Qed.

End SignIn.

Lemma handleProfileUpdate_edits_commute_witness :
  localUserData
    (state (snd (run_handleProfileUpdate no_props key_phone (js "0917")
                   (snd (run_handleProfileUpdate no_props key_name (js "Ana")
                           first_world)))))
  = localUserData
      (state (snd (run_handleProfileUpdate no_props key_name (js "Ana")
                     (snd (run_handleProfileUpdate no_props key_phone (js "0917")
                             first_world))))).
Proof.
  apply (handleProfileUpdate_edits_commute no_props first_world
           key_name key_phone (js "Ana") (js "0917")).
  discriminate.
Defined.

Lemma typed_name_shows_its_initials_witness :
  render_avatar (state (snd (run_onNameChange no_props (js "Maria Clara") first_world)))
  = Normal (AvatarInitials (js "MC")).
Proof.
  apply (typed_name_shows_its_initials no_props (js "Maria Clara") first_world).
  reflexivity.
Defined.

Lemma handleGoogleLogin_failure_keeps_data_witness :
  let out :=
    run_handleGoogleLogin (fetch_rejects {| message := js "Failed to fetch" |})
      (js "token") first_world in
  localUserData (state (snd out)) = localUserData (state first_world)
  /\ exists msg : jsstring, formError (state (snd out)) = Some msg /\ msg <> js "".
Proof.
  apply (handleGoogleLogin_failure_keeps_data
           (fetch_rejects {| message := js "Failed to fetch" |}) (js "token")
           first_world).
  reflexivity.
Defined.

Lemma login_without_full_name_breaks_avatar_witness :
  let after :=
    state (snd (run_handleGoogleLogin
                  (answer true (VObj [ (js "user", VObj nameless) ]))
                  (js "token") first_world)) in
  formError after = None
  /\ name (localUserData after) = VUndefined
  /\ render_avatar after
     = Throw {| message := TypeError_message VUndefined (js "split") |}.
Proof.
  exact (login_without_full_name_breaks_avatar
           {| ok := true; json := Normal (VObj [ (js "user", VObj nameless) ]) |}
           first_world (js "token") (VObj [ (js "user", VObj nameless) ]) nameless
           eq_refl eq_refl eq_refl eq_refl eq_refl).
Defined.

Lemma getInitials_app_space_witness :
  getInitials (js "Juan Dela" ++ JS.space :: js "Cruz")
  = getInitials (js "Juan Dela") ++ getInitials (js "Cruz").
Proof.
  apply (getInitials_app_space (js "Juan Dela") (js "Cruz")); reflexivity.
Defined.

Lemma getInitials_one_per_word_witness :
  length (getInitials (js " Juan  Dela Cruz "))
  = length (filter (fun piece : jsstring => piece <> [])
                   (JS.split JS.space (js " Juan  Dela Cruz ")))
  /\ Spec.has Spec.is_space (getInitials (js " Juan  Dela Cruz ")) = false.
Proof.
  apply (getInitials_one_per_word (js " Juan  Dela Cruz ")). reflexivity.
Defined.

Lemma getInitials_case_insensitive_witness :
  getInitials (JS.toUpperCase (js "Juan dela cruz"))
  = getInitials (js "Juan dela cruz")
  /\ JS.toUpperCase (getInitials (js "Juan dela cruz"))
     = getInitials (js "Juan dela cruz").
Proof.
  apply (getInitials_case_insensitive (js "Juan dela cruz")). reflexivity.
Defined.
